(** * ValoStat: the credential loader and the status poller of
    [valorant_tracker.py]

    A shallow embedding of [debug_log], [load_api_key], the module global
    [RIOT_API_KEY], [MatchTracker.fetch_match_status], [MatchTracker.run]
    and the window that displays the status ([ValorantTrackerGUI] with
    [update_match_status]), followed by the properties of the specification
    that concern them and by further properties of the code.

    Python code with effects is written in a state-and-exception monad over
    a record [World] that holds everything the program touches: the file
    system, the network, the console, the log file, the Qt signal and the
    module global.  As in Python, the effects performed before an exception
    is raised stay performed.

    The world is the state of the process once its first statement,
    [logging.basicConfig], has opened the log file; that statement itself
    is [logging_basicConfig], and [script] begins with it. *)

From Stdlib Require Import List NArith ZArith Bool String Ascii Lia.
Import ListNotations.

Set Implicit Arguments.

(* ================================================================== *)
(** * Python strings *)
(* ================================================================== *)

Module PyStr.

(** A Python [str] is a sequence of Unicode code points. *)
Definition pystr : Type := list N.

(** A literal of the source, written as a Rocq string of ASCII characters. *)
Definition lit (s : string) : pystr :=
  List.map N_of_ascii (list_ascii_of_string s).

(** [str.isspace] on one code point: the characters that [str.strip()]
    without argument removes (CPython's [_PyUnicode_IsWhitespace]). *)
Definition isspace (c : N) : bool :=
  ((9 <=? c) && (c <=? 13)            (* \t \n \v \f \r *)
   || (28 <=? c) && (c <=? 32)        (* FS GS RS US and the space *)
   || (c =? 133) || (c =? 160)        (* NEL, no-break space *)
   || (c =? 5760)                     (* U+1680 *)
   || (8192 <=? c) && (c <=? 8202)    (* U+2000 .. U+200A *)
   || (c =? 8232) || (c =? 8233)      (* U+2028, U+2029 *)
   || (c =? 8239) || (c =? 8287)      (* U+202F, U+205F *)
   || (c =? 12288))%N.                (* U+3000 *)

(** [s.lstrip()] *)
Fixpoint lstrip (s : pystr) : pystr :=
  match s with
  | [] => []
  | c :: s' => if isspace c then lstrip s' else s
  end.

(** [s.rstrip()] *)
Definition rstrip (s : pystr) : pystr := rev (lstrip (rev s)).

(** [s.strip()]: whitespace is removed at both ends. *)
Definition strip (s : pystr) : pystr := rstrip (lstrip s).

(** [s.startswith(p)] *)
Fixpoint startswith (p s : pystr) : bool :=
  match p, s with
  | [], _ => true
  | _ :: _, [] => false
  | a :: p', b :: s' => (a =? b)%N && startswith p' s'
  end.

(** [p in s]: [p] occurs in [s] as a contiguous substring. *)
Fixpoint contains (p s : pystr) : bool :=
  startswith p s
  || match s with
     | [] => false
     | _ :: s' => contains p s'
     end.

(** Truth value of a string: [bool(s)]. *)
Definition truthy (s : pystr) : bool :=
  match s with [] => false | _ :: _ => true end.

(** Equality test on strings, as [==] and dictionary lookup use it. *)
Fixpoint eqb (s t : pystr) : bool :=
  match s, t with
  | [], [] => true
  | a :: s', b :: t' => (a =? b)%N && eqb s' t'
  | _, _ => false
  end.

End PyStr.
Export PyStr.

(* ================================================================== *)
(** * Python values and exceptions *)
(* ================================================================== *)

(** The values [json.load] can produce.  A [dict] keeps the members of the
    JSON object in document order; when a key is repeated the last member
    wins, see [dict_lookup]. *)
#[warnings="-register-all"] Inductive pyvalue : Type :=
| PyNone
| PyBool (b : bool)
| PyInt (n : Z)
| PyFloat (literal : pystr)
| PyStr (s : pystr)
| PyList (items : list pyvalue)
| PyDict (members : list (pystr * pyvalue)).

(** [type(v).__name__] *)
Definition type_name (v : pyvalue) : pystr :=
  match v with
  | PyNone => lit "NoneType"
  | PyBool _ => lit "bool"
  | PyInt _ => lit "int"
  | PyFloat _ => lit "float"
  | PyStr _ => lit "str"
  | PyList _ => lit "list"
  | PyDict _ => lit "dict"
  end.

(** The exception classes that occur; all of them derive from [Exception]. *)
Inductive exn_class : Type :=
| OSError
| FileNotFoundError
| UnicodeDecodeError
| UnicodeEncodeError
| JSONDecodeError
| AttributeError
| RequestException
| OtherException.

Record exn : Type := mkExn {
  exn_kind : exn_class;
  exn_str : pystr            (* [str(e)] *)
}.

(** Raised by attribute access on a value whose type lacks the attribute. *)
Definition no_attribute (v : pyvalue) (attr : string) : exn :=
  mkExn AttributeError
        (lit "'" ++ type_name v ++ lit "' object has no attribute '"
             ++ lit attr ++ lit "'").

(** Outcome of a Python computation. *)
Inductive result (A : Type) : Type :=
| Return (a : A)
| Raise (e : exn).
Arguments Raise {A} e.

(** Lookup in a [dict] built from the members of a JSON object: of several
    members with the same key the last one is kept. *)
Fixpoint dict_lookup (members : list (pystr * pyvalue)) (key : pystr)
  : option pyvalue :=
  match members with
  | [] => None
  | (k, v) :: rest =>
      match dict_lookup rest key with
      | Some v' => Some v'
      | None => if PyStr.eqb k key then Some v else None
      end
  end.

(* ================================================================== *)
(** * The world the program runs in *)
(* ================================================================== *)

(** An HTTP request as [requests.get(url, headers=headers)] receives it.
    A header value is [None] when the module global holds no token. *)
Record request : Type := mkRequest {
  req_url : pystr;
  req_headers : list (pystr * option pystr)
}.

Record response : Type := mkResponse {
  status_code : Z
}.

(** What one call of [requests.get] does: it returns a response or raises. *)
Inductive http_outcome : Type :=
| Responds (r : response)
| Fails (e : exn).

(** What the program cannot decide: the console it prints on, the
    libraries it calls and the directory it is started in. *)
Record Host : Type := mkHost {
  (** for a text that is not pure ASCII, the exception that writing it to
      [sys.stdout] raises, if any ([UnicodeEncodeError] when the encoding
      of the console has no code for one of its characters) *)
  stdout_rejects : pystr -> option exn;
  (** the records that the k-th call of [requests.get] makes the libraries
      below it (urllib3) send to the root logger, which
      [logging.basicConfig(level=logging.DEBUG)] lets through to the log
      file *)
  library_log : nat -> request -> list pystr;
  (** the exception that opening ["logs/tracker_debug.log"] for appending
      raises, if any ([FileNotFoundError] when the directory is missing) *)
  log_open_error : option exn
}.

Record World : Type := mkWorld {
  (** the file system: for a path that exists, what
      [with open(path) as f: json.load(f)] makes of the file, namely the
      decoded document or the exception of [open] or of the decoder *)
  files : pystr -> option (result pyvalue);
  (** the network: the outcome of the k-th call of [requests.get] (counted
      from 0), which may depend on the request *)
  network : nat -> request -> http_outcome;
  (** the requests issued so far, oldest first *)
  requests_sent : list request;
  (** what was printed on the console, one item per call of [print]: a
      complete line, or the beginning of a line when the call raised
      before its end *)
  console : list pystr;
  (** the messages of the records that reached the log file, oldest
      first *)
  logfile : list pystr;
  (** the values emitted on [match_data_signal], oldest first *)
  emitted : list pystr;
  (** the arguments of the calls of [time.sleep], oldest first *)
  slept : list Z;
  (** the interruption flag of the thread, set by
      [QThread.requestInterruption] *)
  interruption_requested : bool;
  (** the module global [RIOT_API_KEY] *)
  RIOT_API_KEY : option pystr;
  (** the surroundings of the process, which the program never changes *)
  host : Host
}.

(* ================================================================== *)
(** * The monad of Python computations *)
(* ================================================================== *)

Module PyMonad.

Definition M (A : Type) : Type := World -> result A * World.

Definition ret {A} (a : A) : M A := fun w => (Return a, w).

Definition raise {A} (e : exn) : M A := fun w => (Raise e, w).

Definition bind {A B} (m : M A) (k : A -> M B) : M B :=
  fun w =>
    match m w with
    | (Return a, w') => k a w'
    | (Raise e, w') => (Raise e, w')
    end.

(** [try: body  except Exception as e: handler(e)] *)
Definition try_except {A} (body : M A) (handler : exn -> M A) : M A :=
  fun w =>
    match body w with
    | (Return a, w') => (Return a, w')
    | (Raise e, w') => handler e w'
    end.

Declare Scope py_scope.
Delimit Scope py_scope with py.

Notation "x <- m ;; k" := (bind m (fun x => k))
  (at level 100, m at next level, right associativity) : py_scope.
Notation "m ;;; k" := (bind m (fun _ => k))
  (at level 100, right associativity) : py_scope.

End PyMonad.
Export PyMonad.
Local Open Scope py_scope.

(** The value a computation produces and the world it leaves. *)
Definition outcome {A} (m : M A) (w : World) : result A := fst (m w).
Definition after {A} (m : M A) (w : World) : World := snd (m w).

(* ================================================================== *)
(** * Primitive effects *)
(* ================================================================== *)

(** Every encoding of a console contains ASCII. *)
Definition is_ascii (text : pystr) : bool :=
  forallb (fun c => (c <? 128)%N) text.

(** The exception that writing [text] to [sys.stdout] raises, if any. *)
Definition stdout_error (w : World) (text : pystr) : option exn :=
  if is_ascii text then None else stdout_rejects (host w) text.

(** [print(first, second)]: the two arguments are written one after the
    other, with a space between them and a newline at the end.  The write
    of an argument that the console cannot encode raises, and what was
    written before it stays written. *)
Definition print (first second : pystr) : M unit :=
  fun w =>
    let written text :=
      mkWorld (files w) (network w) (requests_sent w)
              (console w ++ [text]) (logfile w) (emitted w) (slept w)
              (interruption_requested w) (RIOT_API_KEY w) (host w) in
    match stdout_error w first, stdout_error w second with
    | Some e, _ => (Raise e, w)
    | None, Some e => (Raise e, written (first ++ lit " "))
    | None, None => (Return tt, written (first ++ lit " " ++ second))
    end.

(** [logging.debug(message)]: the record goes to the log file; the logging
    module raises nothing. *)
Definition logging_debug (message : pystr) : M unit :=
  fun w =>
    (Return tt,
     mkWorld (files w) (network w) (requests_sent w)
             (console w) (logfile w ++ [message]) (emitted w) (slept w)
             (interruption_requested w) (RIOT_API_KEY w) (host w)).

(** [os.path.exists(path)] *)
Definition os_path_exists (path : pystr) : M bool :=
  fun w =>
    (Return (match files w path with Some _ => true | None => false end), w).

(** [with open(path, "r", encoding="utf-8") as f: json.load(f)] *)
Definition json_load_file (path : pystr) : M pyvalue :=
  fun w =>
    match files w path with
    | Some (Return v) => (Return v, w)
    | Some (Raise e) => (Raise e, w)
    | None => (Raise (mkExn OSError (lit "No such file or directory")), w)
    end.

(** [config.get(key, default)]: only a [dict] has the method. *)
Definition py_get (config : pyvalue) (key : pystr) (default : pyvalue)
  : M pyvalue :=
  match config with
  | PyDict members =>
      ret (match dict_lookup members key with
           | Some v => v
           | None => default
           end)
  | _ => raise (no_attribute config "get")
  end.

(** [v.strip()]: only a [str] has the method. *)
Definition py_strip (v : pyvalue) : M pystr :=
  match v with
  | PyStr s => ret (strip s)
  | _ => raise (no_attribute v "strip")
  end.

(** [requests.get(url, headers=headers)]: the request is recorded, the
    libraries log what they do with it, and the network decides its
    outcome. *)
Definition requests_get (url : pystr) (headers : list (pystr * option pystr))
  : M response :=
  fun w =>
    let req := mkRequest url headers in
    let w' := mkWorld (files w) (network w) (requests_sent w ++ [req])
                      (console w)
                      (logfile w
                       ++ library_log (host w) (List.length (requests_sent w)) req)
                      (emitted w) (slept w)
                      (interruption_requested w) (RIOT_API_KEY w) (host w) in
    match network w (List.length (requests_sent w)) req with
    | Responds r => (Return r, w')
    | Fails e => (Raise e, w')
    end.

(** [self.match_data_signal.emit(status)] *)
Definition signal_emit (status : pystr) : M unit :=
  fun w =>
    (Return tt,
     mkWorld (files w) (network w) (requests_sent w)
             (console w) (logfile w) (emitted w ++ [status]) (slept w)
             (interruption_requested w) (RIOT_API_KEY w) (host w)).

(** [time.sleep(seconds)] *)
Definition time_sleep (seconds : Z) : M unit :=
  fun w =>
    (Return tt,
     mkWorld (files w) (network w) (requests_sent w)
             (console w) (logfile w) (emitted w) (slept w ++ [seconds])
             (interruption_requested w) (RIOT_API_KEY w) (host w)).

(** Reading and writing the module global. *)
Definition read_RIOT_API_KEY : M (option pystr) :=
  fun w => (Return (RIOT_API_KEY w), w).

Definition assign_RIOT_API_KEY (key : option pystr) : M unit :=
  fun w =>
    (Return tt,
     mkWorld (files w) (network w) (requests_sent w)
             (console w) (logfile w) (emitted w) (slept w)
             (interruption_requested w) key (host w)).

(** [QThread.requestInterruption()], called from outside the thread. *)
Definition requestInterruption (w : World) : World :=
  mkWorld (files w) (network w) (requests_sent w)
          (console w) (logfile w) (emitted w) (slept w)
          true (RIOT_API_KEY w) (host w).

(* ================================================================== *)
(** * The program *)
(* ================================================================== *)

(** [logging.basicConfig(filename="logs/tracker_debug.log", ...)], the
    first statement of the module: it opens the log file. *)
Definition logging_basicConfig : M unit :=
  fun w =>
    match log_open_error (host w) with
    | Some e => (Raise e, w)
    | None => (Return tt, w)
    end.

(** [debug_log(message)]: one console line, then one log record. *)
Definition debug_log (message : pystr) : M unit :=
  print (lit "[DEBUG]:") message ;;;
  logging_debug message.

Definition CONFIG_FILE : pystr := lit "config/tracker_config.json".

Definition MARKER : pystr := lit "RGAPI-".

(** [load_api_key()] *)
Definition load_api_key : M (option pystr) :=
  found <- os_path_exists CONFIG_FILE ;;
  if negb found then
    debug_log (lit "Config file not found. Please update tracker_config.json.") ;;;
    ret None
  else
    config <- json_load_file CONFIG_FILE ;;
    field <- py_get config (lit "api_key") (PyStr (lit "")) ;;
    api_key <- py_strip field ;;
    ret (if truthy api_key && contains MARKER api_key
         then Some api_key else None).

(** The module-level statement [RIOT_API_KEY = load_api_key()]. *)
Definition module_init : M unit :=
  key <- load_api_key ;;
  assign_RIOT_API_KEY key.

Definition MATCH_ACTIVE : pystr := lit "Match Active - Data Retrieved!".
Definition NO_ACTIVE_MATCH : pystr := lit "No Active Match Found.".
Definition ERROR_FETCHING : pystr := lit "Error fetching data.".

Definition URL : pystr :=
  lit "https://americas.api.riotgames.com/valorant/v1/matches".

(** [MatchTracker.fetch_match_status(self)] *)
Definition fetch_match_status : M pystr :=
  key <- read_RIOT_API_KEY ;;
  let headers := [(lit "X-Riot-Token", key)] in
  try_except
    (response <- requests_get URL headers ;;
     if (status_code response =? 200)%Z
     then ret MATCH_ACTIVE
     else ret NO_ACTIVE_MATCH)
    (fun e =>
       debug_log (lit "API Error: " ++ exn_str e) ;;;
       ret ERROR_FETCHING).

(** One iteration of the body of [while True] in [MatchTracker.run]. *)
Definition run_iteration : M unit :=
  match_status <- fetch_match_status ;;
  signal_emit match_status ;;;
  time_sleep 5.

(** [MatchTracker.run(self)], unrolled [ticks] times.  The loop has no exit:
    [Return tt] after [ticks] iterations means that the loop is still
    running, and [Raise e] that an exception left it. *)
Fixpoint run (ticks : nat) : M unit :=
  match ticks with
  | O => ret tt
  | S n => run_iteration ;;; run n
  end.

(* ================================================================== *)
(** * Vocabulary of the specification *)
(* ================================================================== *)

(** The request a poll tick sends: the token header carries whatever the
    module global holds. *)
Definition tick_request (w : World) : request :=
  mkRequest URL [(lit "X-Riot-Token", RIOT_API_KEY w)].

(** What the network will do with the request of the next poll tick. *)
Definition next_outcome (w : World) : http_outcome :=
  network w (List.length (requests_sent w)) (tick_request w).

(** The three cases of the remote check (PollOutcome in the specification). *)
Inductive PollOutcome : Type :=
| Active
| Inactive
| TransportError.

Definition poll_outcome (o : http_outcome) : PollOutcome :=
  match o with
  | Responds r => if (status_code r =? 200)%Z then Active else Inactive
  | Fails _ => TransportError
  end.

(** The table of the specification (StatusClassifier), written from its
    words; [fetch_match_status] is compared with it. *)
Definition classify (o : PollOutcome) : pystr :=
  match o with
  | Active => lit "Match Active - Data Retrieved!"
  | Inactive => lit "No Active Match Found."
  | TransportError => lit "Error fetching data."
  end.

(** The shapes a configuration resource can have, as [load_api_key]
    tells them apart. *)
Inductive config_shape : Type :=
| FileMissing
| Undecodable (e : exn)
| NotAnObject (v : pyvalue)
| FieldMissing
| FieldNotString (v : pyvalue)
| FieldString (s : pystr).

Definition shape_of_document (v : pyvalue) : config_shape :=
  match v with
  | PyDict members =>
      match dict_lookup members (lit "api_key") with
      | None => FieldMissing
      | Some (PyStr s) => FieldString s
      | Some other => FieldNotString other
      end
  | _ => NotAnObject v
  end.

Definition config_shape_of (w : World) : config_shape :=
  match files w CONFIG_FILE with
  | None => FileMissing
  | Some (Raise e) => Undecodable e
  | Some (Return v) => shape_of_document v
  end.



(* ================================================================== *)
(** * Concrete worlds *)
(* ================================================================== *)

(** A file system that holds the configuration file only. *)
Definition only_config (content : result pyvalue)
  : pystr -> option (result pyvalue) :=
  fun path => if PyStr.eqb path CONFIG_FILE then Some content else None.

Definition no_files : pystr -> option (result pyvalue) := fun _ => None.

(** A network on which every request gets the same answer. *)
Definition always (o : http_outcome) : nat -> request -> http_outcome :=
  fun _ _ => o.

(** A UTF-8 console: it has a code for every character except the
    surrogates U+D800 .. U+DFFF. *)
Definition utf8_rejects (text : pystr) : option exn :=
  if existsb (fun c => (55296 <=? c) && (c <=? 57343))%N text
  then Some (mkExn UnicodeEncodeError
                   (lit "'utf-8' codec can't encode character: surrogates not allowed"))
  else None.

(** An ASCII console: it has no code for any character from 128 on. *)
Definition ascii_encode_error : exn :=
  mkExn UnicodeEncodeError
        (lit "'ascii' codec can't encode character: ordinal not in range(128)").

Definition ascii_rejects (text : pystr) : option exn := Some ascii_encode_error.

(** What urllib3 logs when a connection is opened. *)
Definition urllib3_records (k : nat) (req : request) : list pystr :=
  [lit "Starting new HTTPS connection (1): americas.api.riotgames.com:443"].

(** A host with a UTF-8 console and a directory [logs]. *)
Definition utf8_host : Host := mkHost utf8_rejects urllib3_records None.

(** A host with an ASCII console and a directory [logs]. *)
Definition ascii_host : Host := mkHost ascii_rejects urllib3_records None.

(** A host without the directory [logs]. *)
Definition host_without_logs : Host :=
  mkHost utf8_rejects urllib3_records
         (Some (mkExn FileNotFoundError
                      (lit "[Errno 2] No such file or directory: 'logs/tracker_debug.log'"))).

(** The world at program start: nothing printed, logged, sent or emitted,
    the global not yet assigned. *)
Definition world_on (h : Host) (fs : pystr -> option (result pyvalue))
           (net : nat -> request -> http_outcome) : World :=
  mkWorld fs net [] [] [] [] [] false None h.

Definition initial_world (fs : pystr -> option (result pyvalue))
           (net : nat -> request -> http_outcome) : World :=
  world_on utf8_host fs net.

(** A configuration object with the single member [api_key]. *)
Definition config_with (v : pyvalue) : result pyvalue :=
  Return (PyDict [(lit "api_key", v)]).

Definition connection_refused : exn :=
  mkExn RequestException (lit "Connection refused").


(** An exception whose text is not ASCII. *)
Definition connexion_refusee : exn :=
  mkExn RequestException (lit "Connexion refus" ++ [233; 101]%N).

(** A poller whose token is [key], on a network that always answers [o]. *)
Definition poller_world (key : option pystr) (o : http_outcome) : World :=
  mkWorld no_files (always o) [] [] [] [] [] false key utf8_host.

(** A poller on the host [h] whose token is [key], on the network [net]. *)
Definition poller_on (h : Host) (key : option pystr)
           (net : nat -> request -> http_outcome) : World :=
  mkWorld no_files net [] [] [] [] [] false key h.

(** A network whose request number 1 fails with [e] and whose other
    requests are answered with status 200. *)
Definition fails_second (e : exn) : nat -> request -> http_outcome :=
  fun k _ => if Nat.eqb k 1 then Fails e else Responds (mkResponse 200).

(* ================================================================== *)
(** * The rest of the script *)
(* ================================================================== *)

(** What a poll tick hands to [debug_log]: nothing when the request is
    answered, the line of the [except] branch when it raises. *)
Definition tick_diagnostics (o : http_outcome) : list pystr :=
  match o with
  | Responds _ => []
  | Fails e => [lit "API Error: " ++ exn_str e]
  end.

(** The outcomes of the requests of the next [n] poll ticks, in tick
    order: the k-th of them is the request number
    [length (requests_sent w) + k] on the network. *)
Definition tick_outcomes (n : nat) (w : World) : list http_outcome :=
  List.map (fun k => network w (List.length (requests_sent w) + k) (tick_request w))
           (seq 0 n).

(** The exception that leaves the [except] branch of a poll tick, if
    any: the one [print] raises on the diagnostic of a failed request. *)
Definition handler_error (w : World) (o : http_outcome) : option exn :=
  match o with
  | Responds _ => None
  | Fails e => stdout_error w (lit "API Error: " ++ exn_str e)
  end.

(** The same for the k-th of the next poll ticks. *)
Definition tick_error (w : World) (k : nat) : option exn :=
  handler_error w
    (network w (List.length (requests_sent w) + k) (tick_request w)).

(** What the k-th of the next poll ticks adds to the log file: the records
    of the libraries, then the diagnostic of the tick. *)
Definition tick_log_records (w : World) (k : nat) : list pystr :=
  library_log (host w) (List.length (requests_sent w) + k) (tick_request w)
  ++ tick_diagnostics
       (network w (List.length (requests_sent w) + k) (tick_request w)).

(** [w1] is the world one completed poll tick after [w], as far as the
    later ticks can tell. *)
Definition one_tick_later (w w1 : World) : Prop :=
  network w1 = network w /\ host w1 = host w /\
  RIOT_API_KEY w1 = RIOT_API_KEY w /\
  requests_sent w1 = requests_sent w ++ [tick_request w].

(** The script from its first statement to the [ticks]-th iteration of the
    tracker: [logging.basicConfig], the module-level assignment of
    [RIOT_API_KEY], then [launch_gui], whose window starts the tracker
    thread ([start_tracking]), which executes [run]. *)
Definition script (ticks : nat) : M unit :=
  logging_basicConfig ;;;
  module_init ;;;
  run ticks.

(** The widgets of [ValorantTrackerGUI] that the script sets or reads. *)
Record Window : Type := mkWindow {
  window_title : pystr;                 (* [setWindowTitle] *)
  window_geometry : Z * Z * Z * Z;      (* [setGeometry] *)
  tab_titles : list pystr;              (* [self.tabs.addTab], in order *)
  match_status_label : pystr;           (* text of [self.match_status_label] *)
  match_status_font : pystr * Z;        (* [QFont("Arial", 12)] *)
  log_display : pystr;                  (* text of [self.log_display] *)
  log_display_read_only : bool          (* [setReadOnly(True)] *)
}.

(** The window as [ValorantTrackerGUI.__init__] builds it ([initUI],
    [create_status_tab], [create_logs_tab]). *)
Definition ValorantTrackerGUI : Window :=
  mkWindow (lit "Valorant Tracker - Enterprise Edition")
           (100, 100, 1000, 650)%Z
           [lit "Live Match"; lit "Logs"]
           (lit "Waiting for match data...")
           (lit "Arial", 12%Z)
           (lit "")
           true.

(** [ValorantTrackerGUI.update_match_status(self, status)] *)
Definition update_match_status (status : pystr) (g : Window) : Window :=
  mkWindow (window_title g) (window_geometry g) (tab_titles g)
           status
           (match_status_font g) (log_display g) (log_display_read_only g).

(** The connection made by [start_tracking]: every value emitted on
    [match_data_signal] is passed to [update_match_status], in the order of
    emission. *)
Definition deliver (statuses : list pystr) (g : Window) : Window :=
  fold_left (fun g' status => update_match_status status g') statuses g.

(* ================================================================== *)
(** * Facts about strings *)
(* ================================================================== *)

Section StringFacts.

Implicit Types s t p : pystr.

Lemma eqb_refl s : PyStr.eqb s s = true.
Proof.
  induction s as [|c s IH]; simpl; [reflexivity|].
  now rewrite N.eqb_refl, IH.
Qed.

Lemma eqb_eq s t : PyStr.eqb s t = true <-> s = t.
Proof.
  split; [|intros ->; apply eqb_refl].
  revert t; induction s as [|c s IH]; intros [|d t]; simpl; try discriminate; auto.
  intros H. apply andb_true_iff in H as [Hc Hs].
  apply N.eqb_eq in Hc. apply IH in Hs. congruence.
Qed.

(** [s.startswith(p)] holds exactly when [s] is [p] followed by something. *)
Lemma startswith_spec p s :
  startswith p s = true <-> exists r, s = p ++ r.
Proof.
  revert s; induction p as [|a p IH]; intros s; simpl.
  - split; [exists s; reflexivity | reflexivity].
  - destruct s as [|b s].
    + split; [discriminate | intros [r Hr]; discriminate].
    + rewrite andb_true_iff, N.eqb_eq, IH. split.
      * intros [-> [r ->]]. now exists r.
      * intros [r Hr]. injection Hr as -> ->. split; [reflexivity | now exists r].
Qed.

(** [p in s] holds exactly when [s] is [l ++ p ++ r] for some [l] and [r]. *)
Lemma contains_spec p s :
  contains p s = true <-> exists l r, s = l ++ p ++ r.
Proof.
  induction s as [|c s IH].
  - simpl. rewrite orb_false_r, startswith_spec. split.
    + intros [r Hr]. now exists [], r.
    + intros [l [r Hr]]. destruct l; [now exists r | discriminate].
  - cbn [contains]. rewrite orb_true_iff, startswith_spec, IH. split.
    + intros [[r Hr] | [l [r Hr]]].
      * now exists [], r.
      * exists (c :: l), r. now rewrite Hr.
    + intros [[|d l] [r Hr]].
      * left. now exists r.
      * right. injection Hr as _ ->. now exists l, r.
Qed.

Lemma startswith_contains p s : startswith p s = true -> contains p s = true.
Proof.
  intros H. destruct s; simpl in *; rewrite H; reflexivity.
Qed.

(** What [lstrip] removes is whitespace, and what is left is a suffix. *)
Lemma lstrip_decompose s :
  exists ws, s = ws ++ lstrip s /\ forallb isspace ws = true.
Proof.
  induction s as [|c s (ws & Hs & Hws)]; simpl.
  - now exists [].
  - destruct (isspace c) eqn:Hc.
    + exists (c :: ws). simpl. rewrite Hc, Hws. split; [congruence | reflexivity].
    + now exists [].
Qed.

Lemma lstrip_head s c rest : lstrip s = c :: rest -> isspace c = false.
Proof.
  induction s as [|d s IH]; simpl; [discriminate|].
  destruct (isspace d) eqn:Hd; [exact IH|].
  intros H; injection H as -> _. exact Hd.
Qed.

Lemma lstrip_fixed s :
  (forall c rest, s = c :: rest -> isspace c = false) -> lstrip s = s.
Proof.
  destruct s as [|c s]; simpl; [reflexivity|].
  intros H. now rewrite (H c s eq_refl).
Qed.

(** What [rstrip] removes is whitespace, and what is left is a prefix. *)
Lemma rstrip_decompose s :
  exists ws, s = rstrip s ++ ws /\ forallb isspace ws = true.
Proof.
  unfold rstrip. destruct (lstrip_decompose (rev s)) as (ws & Hs & Hws).
  exists (rev ws). split.
  - rewrite <- rev_app_distr, <- Hs. symmetry; apply rev_involutive.
  - rewrite forallb_forall in *. intros x Hx. apply Hws. now apply in_rev.
Qed.

Lemma rstrip_last s front c : rstrip s = front ++ [c] -> isspace c = false.
Proof.
  unfold rstrip. intros H.
  apply (f_equal (@rev N)) in H.
  rewrite rev_involutive, rev_app_distr in H. simpl in H.
  exact (lstrip_head _ H).
Qed.

Lemma rstrip_first s c rest : rstrip s = c :: rest -> exists rest', s = c :: rest'.
Proof.
  destruct (rstrip_decompose s) as (ws & Hs & _). intros H.
  rewrite H in Hs. now exists (rest ++ ws).
Qed.

Lemma rstrip_fixed s :
  (forall front c, s = front ++ [c] -> isspace c = false) -> rstrip s = s.
Proof.
  intros H. unfold rstrip. rewrite lstrip_fixed; [apply rev_involutive|].
  intros c rest Hr. apply (H (rev rest) c).
  rewrite <- (rev_involutive s), Hr. reflexivity.
Qed.

(** The result of [strip] begins with no whitespace ... *)
Lemma strip_first s c rest : strip s = c :: rest -> isspace c = false.
Proof.
  unfold strip. intros H.
  destruct (rstrip_first _ H) as [rest' Hl].
  exact (lstrip_head _ Hl).
Qed.

(** ... and ends with none. *)
Lemma strip_last s front c : strip s = front ++ [c] -> isspace c = false.
Proof. unfold strip. apply rstrip_last. Qed.

(** [strip] changes nothing in a string that is already trimmed. *)
Lemma strip_fixed s :
  (forall c rest, s = c :: rest -> isspace c = false) ->
  (forall front c, s = front ++ [c] -> isspace c = false) ->
  strip s = s.
Proof.
  intros Hf Hl. unfold strip. rewrite (lstrip_fixed Hf). exact (rstrip_fixed Hl).
Qed.

Lemma strip_idempotent s : strip (strip s) = strip s.
Proof.
  apply strip_fixed.
  - intros c rest. apply strip_first.
  - intros front c. apply strip_last.
Qed.

Lemma truthy_iff s : truthy s = true <-> s <> [].
Proof. destruct s; simpl; split; congruence. Qed.

End StringFacts.

(* ================================================================== *)
(** * The program, case by case *)
(* ================================================================== *)

(** [debug_log] prints one line and logs one record, unless the console
    cannot encode the message: then the exception of [print] leaves it, the
    line stops after ["[DEBUG]: "] and nothing is logged. *)
Lemma debug_log_eq message w :
  debug_log message w =
  match stdout_error w message with
  | None =>
      (Return tt,
       mkWorld (files w) (network w) (requests_sent w)
               (console w ++ [lit "[DEBUG]: " ++ message])
               (logfile w ++ [message]) (emitted w) (slept w)
               (interruption_requested w) (RIOT_API_KEY w) (host w))
  | Some e =>
      (Raise e,
       mkWorld (files w) (network w) (requests_sent w)
               (console w ++ [lit "[DEBUG]: "])
               (logfile w) (emitted w) (slept w)
               (interruption_requested w) (RIOT_API_KEY w) (host w))
  end.
Proof.
  unfold debug_log, bind, print, logging_debug.
  change (stdout_error w (lit "[DEBUG]:")) with (@None exn).
  destruct (stdout_error w message); reflexivity.
Qed.

(** [load_api_key] on each shape of the configuration resource. *)
Lemma load_api_key_eq w :
  load_api_key w =
  match config_shape_of w with
  | FileMissing =>
      debug_log
        (lit "Config file not found. Please update tracker_config.json.") ;;;
      ret None
  | Undecodable e => raise e
  | NotAnObject v => raise (no_attribute v "get")
  | FieldMissing => ret None
  | FieldNotString v => raise (no_attribute v "strip")
  | FieldString s =>
      ret (if truthy (strip s) && contains MARKER (strip s)
           then Some (strip s) else None)
  end%py w.
Proof.
  cbv [load_api_key config_shape_of bind os_path_exists json_load_file negb].
  destruct (files w CONFIG_FILE) as [[v|e]|] eqn:Hfile;
    cbv beta iota; rewrite ?Hfile; [|reflexivity|reflexivity].
  destruct v; try reflexivity.
  cbv [py_get shape_of_document ret].
  destruct (dict_lookup members (lit "api_key")) as [[]|]; reflexivity.
Qed.

(** [fetch_match_status] on each outcome of the request, and in the
    [except] branch on whether the diagnostic can be printed. *)
Lemma fetch_match_status_eq w :
  fetch_match_status w =
  let sent :=
    requests_sent w ++ [tick_request w] in
  let logged :=
    logfile w
    ++ library_log (host w) (List.length (requests_sent w)) (tick_request w) in
  match next_outcome w with
  | Responds r =>
      (Return (if (status_code r =? 200)%Z
               then MATCH_ACTIVE else NO_ACTIVE_MATCH),
       mkWorld (files w) (network w) sent (console w) logged
               (emitted w) (slept w)
               (interruption_requested w) (RIOT_API_KEY w) (host w))
  | Fails e =>
      match stdout_error w (lit "API Error: " ++ exn_str e) with
      | None =>
          (Return ERROR_FETCHING,
           mkWorld (files w) (network w) sent
                   (console w ++ [lit "[DEBUG]: " ++ lit "API Error: " ++ exn_str e])
                   (logged ++ [lit "API Error: " ++ exn_str e])
                   (emitted w) (slept w)
                   (interruption_requested w) (RIOT_API_KEY w) (host w))
      | Some pe =>
          (Raise pe,
           mkWorld (files w) (network w) sent
                   (console w ++ [lit "[DEBUG]: "]) logged
                   (emitted w) (slept w)
                   (interruption_requested w) (RIOT_API_KEY w) (host w))
      end
  end.
Proof.
  cbv [fetch_match_status bind read_RIOT_API_KEY try_except requests_get
       next_outcome tick_request].
  destruct (network w _ _) as [r|e]; cbn [status_code].
  - destruct (status_code r =? 200)%Z; reflexivity.
  - rewrite debug_log_eq.
    match goal with
    | |- context [stdout_error ?w' ?t] =>
        change (stdout_error w' t) with (stdout_error w t)
    end.
    destruct (stdout_error w _); reflexivity.
Qed.

(** One iteration of the loop: when no exception leaves the tick, the
    message is published and the thread sleeps five seconds; otherwise the
    exception leaves the iteration before anything is published. *)
Lemma run_iteration_eq w :
  run_iteration w =
  let sent :=
    requests_sent w ++ [tick_request w] in
  let logged :=
    logfile w
    ++ library_log (host w) (List.length (requests_sent w)) (tick_request w) in
  match handler_error w (next_outcome w) with
  | None =>
      (Return tt,
       mkWorld (files w) (network w) sent
               (console w ++ List.map (fun message => lit "[DEBUG]: " ++ message)
                                      (tick_diagnostics (next_outcome w)))
               (logged ++ tick_diagnostics (next_outcome w))
               (emitted w ++ [classify (poll_outcome (next_outcome w))])
               (slept w ++ [5%Z])
               (interruption_requested w) (RIOT_API_KEY w) (host w))
  | Some pe =>
      (Raise pe,
       mkWorld (files w) (network w) sent
               (console w ++ [lit "[DEBUG]: "]) logged
               (emitted w) (slept w)
               (interruption_requested w) (RIOT_API_KEY w) (host w))
  end.
Proof.
  unfold run_iteration, bind. rewrite fetch_match_status_eq. cbv zeta.
  destruct (next_outcome w) as [r|e]; cbn [handler_error].
  - cbn. rewrite !app_nil_r. destruct (status_code r =? 200)%Z; reflexivity.
  - destruct (stdout_error w _); reflexivity.
Qed.

(* ================================================================== *)
(** * The credential loader *)
(* ================================================================== *)

Section Loader.

Implicit Types (w : World) (t s : pystr).

(** A returned token is the trimmed [api_key] string of the configuration
    object, and it passed both tests of the conditional expression. *)
Lemma load_api_key_some w t :
  outcome load_api_key w = Return (Some t) ->
  exists s, config_shape_of w = FieldString s /\ t = strip s /\
            truthy t = true /\ contains MARKER t = true.
Proof.
  unfold outcome. rewrite load_api_key_eq.
  destruct (config_shape_of w) as [| | | | |s]; try discriminate.
  cbn [ret fst].
  destruct (truthy (strip s)) eqn:Ht; [|discriminate].
  destruct (contains MARKER (strip s)) eqn:Hc; [|discriminate].
  cbn [andb]. intros H. injection H as <-. exists s. auto.
Qed.

(** [None] is returned on three shapes only. *)
Lemma load_api_key_none w :
  outcome load_api_key w = Return None ->
  config_shape_of w = FileMissing \/ config_shape_of w = FieldMissing \/
  exists s, config_shape_of w = FieldString s /\
            truthy (strip s) && contains MARKER (strip s) = false.
Proof.
  unfold outcome. rewrite load_api_key_eq.
  destruct (config_shape_of w) as [| | | | |s]; try discriminate; auto.
  cbn [ret fst]. right; right. exists s. split; [reflexivity|].
  destruct (truthy (strip s) && contains MARKER (strip s)); [discriminate|reflexivity].
Qed.

Lemma file_missing_iff w :
  config_shape_of w = FileMissing <-> files w CONFIG_FILE = None.
Proof.
  unfold config_shape_of.
  destruct (files w CONFIG_FILE) as [[v|e]|]; split; try discriminate; auto.
  unfold shape_of_document.
  destruct v; try discriminate.
  destruct (dict_lookup members (lit "api_key")) as [[]|]; discriminate.
Qed.


(** The module-level assignment stores what the loader returns, and does
    not happen when the loader raises. *)
Lemma module_init_stores w key :
  outcome load_api_key w = Return key ->
  outcome module_init w = Return tt /\
  RIOT_API_KEY (after module_init w) = key.
Proof.
  unfold outcome, after, module_init, bind.
  destruct (load_api_key w) as [[k|e] w']; cbn; [|discriminate].
  intros H; injection H as ->. split; reflexivity.
Qed.

Lemma module_init_raises w e :
  outcome load_api_key w = Raise e -> outcome module_init w = Raise e.
Proof.
  unfold outcome, module_init, bind.
  destruct (load_api_key w) as [[k|e'] w']; cbn; [discriminate|].
  intros H; injection H as ->. reflexivity.
Qed.

(** ** C4 *)




(** ** C5 *)




(** ** C6 *)

(** C6, counterexample: the configuration [{}].  [load_api_key] returns
    [None] because the field is missing, and hands nothing to the
    diagnostics sink. *)
Lemma load_api_key_missing_field_is_silent :
  let w := initial_world (only_config (Return (PyDict [])))
                         (always (Fails connection_refused)) in
  outcome load_api_key w = Return None /\
  logfile (after load_api_key w) = logfile w /\
  console (after load_api_key w) = console w /\
  ~ (outcome load_api_key w = Return None ->
     exists m, logfile (after load_api_key w) = logfile w ++ [m]).
Proof.
  cbv zeta. repeat split; try reflexivity.
  intros H. destruct (H eq_refl) as [m Hm].
  vm_compute in Hm. discriminate Hm.
Qed.

(** C6, amended: when [load_api_key] returns [None] because the
    configuration file is missing, exactly one diagnostic message is
    emitted (one log record and one console line); when it returns [None]
    for a file that exists (field missing, empty, or without the marker),
    no diagnostic message is emitted. *)
Theorem load_api_key_diagnostics w :
  outcome load_api_key w = Return None ->
  (files w CONFIG_FILE = None /\
   logfile (after load_api_key w) =
     logfile w
     ++ [lit "Config file not found. Please update tracker_config.json."] /\
   console (after load_api_key w) =
     console w
     ++ [lit "[DEBUG]: Config file not found. Please update tracker_config.json."])
  \/
  (files w CONFIG_FILE <> None /\
   logfile (after load_api_key w) = logfile w /\
   console (after load_api_key w) = console w).
Proof.
  intros H. pose proof (load_api_key_none w H) as Hshape.
  unfold after. rewrite load_api_key_eq.
  destruct Hshape as [Hs | [Hs | [s [Hs _]]]]; rewrite Hs.
  - left. split; [now apply file_missing_iff | split; reflexivity].
  - right. split; [|split; reflexivity].
    intros Hf. apply file_missing_iff in Hf. congruence.
  - right. split; [|split; reflexivity].
    intros Hf. apply file_missing_iff in Hf. congruence.
Qed.

Lemma load_api_key_diagnostics_witness :
  let w := initial_world no_files (always (Fails connection_refused)) in
  outcome load_api_key w = Return None /\
  logfile (after load_api_key w) =
    [lit "Config file not found. Please update tracker_config.json."].
Proof.
  cbv zeta. split; [reflexivity|].
  destruct (load_api_key_diagnostics
              (initial_world no_files (always (Fails connection_refused)))
              eq_refl) as [[_ [Hlog _]] | [Hfile _]].
  - exact Hlog.
  - exfalso. apply Hfile. reflexivity.
Defined.

(** ** C7 *)

(** C7, counterexample: the configuration [{"api_key": " xRGAPI-1 "}].  The
    trimmed field contains the marker at its second character, not at its
    start, and [load_api_key] returns it. *)
Lemma load_api_key_marker_not_at_start :
  let w := initial_world (only_config (config_with (PyStr (lit " xRGAPI-1 "))))
                         (always (Fails connection_refused)) in
  outcome load_api_key w = Return (Some (lit "xRGAPI-1")) /\
  startswith MARKER (lit "xRGAPI-1") = false /\
  ~ (forall t, outcome load_api_key w = Return (Some t) ->
               startswith MARKER t = true).
Proof.
  cbv zeta. split; [reflexivity | split; [reflexivity|]].
  intros H. specialize (H (lit "xRGAPI-1") eq_refl).
  vm_compute in H. discriminate H.
Qed.

(** C7, amended: a loaded token is accepted only if it is non-empty and
    contains the marker ["RGAPI-"] somewhere, not necessarily at its start;
    and every [api_key] string whose trimmed form contains the marker
    anywhere is accepted. *)
Theorem load_api_key_accepts_marker_anywhere w :
  (forall t, outcome load_api_key w = Return (Some t) ->
             t <> [] /\ exists l r, t = l ++ MARKER ++ r) /\
  (forall s l r, config_shape_of w = FieldString s ->
                 strip s = l ++ MARKER ++ r ->
                 outcome load_api_key w = Return (Some (strip s))).
Proof.
  split.
  - intros t H. destruct (load_api_key_some w H) as (s & _ & _ & Ht & Hc).
    split; [now apply truthy_iff | now apply contains_spec].
  - intros s l r Hs Hm. unfold outcome. rewrite load_api_key_eq, Hs.
    cbn [ret fst].
    assert (Hc : contains MARKER (strip s) = true)
      by (apply contains_spec; now exists l, r).
    assert (Ht : truthy (strip s) = true)
      by (rewrite Hm; destruct l; reflexivity).
    now rewrite Ht, Hc.
Qed.

Lemma load_api_key_accepts_marker_anywhere_witness :
  outcome load_api_key
          (initial_world (only_config (config_with (PyStr (lit " xRGAPI-1 "))))
                         (always (Fails connection_refused)))
  = Return (Some (strip (lit " xRGAPI-1 "))).
Proof.
  apply (proj2 (load_api_key_accepts_marker_anywhere
                  (initial_world
                     (only_config (config_with (PyStr (lit " xRGAPI-1 "))))
                     (always (Fails connection_refused))))
               (lit " xRGAPI-1 ") (lit "x") (lit "1")); reflexivity.
Defined.

(** ** C10 *)

(** C10: whenever [load_api_key] returns a token, the token is a non-empty
    string that neither begins nor ends with whitespace (trimming it again
    changes nothing) and that contains the substring ["RGAPI-"]; in
    particular the empty string is never returned. *)
Theorem load_api_key_token_invariant w t :
  outcome load_api_key w = Return (Some t) ->
  t <> [] /\
  (forall c rest, t = c :: rest -> isspace c = false) /\
  (forall front c, t = front ++ [c] -> isspace c = false) /\
  strip t = t /\
  contains MARKER t = true /\
  exists l r, t = l ++ MARKER ++ r.
Proof.
  intros H. destruct (load_api_key_some w H) as (s & _ & -> & Ht & Hc).
  split; [now apply truthy_iff|].
  split; [intros c rest; apply strip_first|].
  split; [intros front c; apply strip_last|].
  split; [apply strip_idempotent|].
  split; [exact Hc | now apply contains_spec].
Qed.

Lemma load_api_key_token_invariant_witness :
  let w := initial_world
             (only_config (config_with (PyStr (lit "  RGAPI-0123-abcd "))))
             (always (Fails connection_refused)) in
  outcome load_api_key w = Return (Some (lit "RGAPI-0123-abcd")) /\
  lit "RGAPI-0123-abcd" <> [] /\
  strip (lit "RGAPI-0123-abcd") = lit "RGAPI-0123-abcd".
Proof.
  cbv zeta. split; [reflexivity|].
  destruct (load_api_key_token_invariant
              (initial_world
                 (only_config (config_with (PyStr (lit "  RGAPI-0123-abcd "))))
                 (always (Fails connection_refused)))
              (t := lit "RGAPI-0123-abcd") eq_refl)
    as (Hne & _ & _ & Hfix & _).
  split; [exact Hne | exact Hfix].
Defined.

End Loader.

(* ================================================================== *)
(** * The status poller *)
(* ================================================================== *)

Section Poller.

Implicit Types (w : World) (m : pystr) (n k : nat).

(** The three messages are three different strings. *)
Lemma messages_distinct :
  MATCH_ACTIVE <> NO_ACTIVE_MATCH /\
  MATCH_ACTIVE <> ERROR_FETCHING /\
  NO_ACTIVE_MATCH <> ERROR_FETCHING.
Proof. repeat split; intros H; vm_compute in H; discriminate H. Qed.

Lemma classify_range (o : PollOutcome) :
  In (classify o) [MATCH_ACTIVE; NO_ACTIVE_MATCH; ERROR_FETCHING].
Proof. destruct o; simpl; auto. Qed.

Lemma classify_error_iff (o : http_outcome) :
  classify (poll_outcome o) = ERROR_FETCHING <-> exists e, o = Fails e.
Proof.
  destruct messages_distinct as (_ & Hae & Hie).
  destruct o as [r|e]; cbn [poll_outcome].
  - split; [|intros [e He]; discriminate He].
    destruct (status_code r =? 200)%Z; intros H; [destruct (Hae H) | destruct (Hie H)].
  - split; [intros _; now exists e | reflexivity].
Qed.

(** What [fetch_match_status] returns, when it returns, is the message of
    the outcome of its request. *)
Lemma fetch_match_status_returns w m :
  outcome fetch_match_status w = Return m ->
  m = classify (poll_outcome (next_outcome w)).
Proof.
  unfold outcome. rewrite fetch_match_status_eq. cbv zeta.
  destruct (next_outcome w) as [r|e]; cbn [poll_outcome].
  - cbn. intros H; injection H as <-.
    destruct (status_code r =? 200)%Z; reflexivity.
  - destruct (stdout_error w _); cbn; [discriminate|].
    intros H; injection H as <-. reflexivity.
Qed.

(** The request is sent whatever comes of it. *)
Lemma fetch_match_status_sent w :
  requests_sent (after fetch_match_status w) = requests_sent w ++ [tick_request w].
Proof.
  unfold after. rewrite fetch_match_status_eq. cbv zeta.
  destruct (next_outcome w) as [r|e]; [reflexivity|].
  destruct (stdout_error w _); reflexivity.
Qed.

Lemma tick_error_0 w : tick_error w 0 = handler_error w (next_outcome w).
Proof. unfold tick_error, next_outcome. now rewrite Nat.add_0_r. Qed.

(** Unfolding the loop by one iteration. *)
Lemma run_S n w :
  run (S n) w =
  match outcome run_iteration w with
  | Return _ => run n (after run_iteration w)
  | Raise e => (Raise e, after run_iteration w)
  end.
Proof.
  cbn [run]. unfold bind at 1, outcome, after.
  destruct (run_iteration w) as [[[]|e] w1]; reflexivity.
Qed.

Lemma run_iteration_completes w :
  tick_error w 0 = None ->
  outcome run_iteration w = Return tt /\
  one_tick_later w (after run_iteration w).
Proof.
  rewrite tick_error_0. intros H. unfold outcome, after.
  rewrite run_iteration_eq, H. cbv zeta. cbn [fst snd].
  split; [reflexivity | repeat split].
Qed.

Lemma run_iteration_raises w e :
  tick_error w 0 = Some e -> outcome run_iteration w = Raise e.
Proof.
  rewrite tick_error_0. intros H. unfold outcome.
  rewrite run_iteration_eq, H. reflexivity.
Qed.

Lemma next_index w w1 k :
  one_tick_later w w1 ->
  List.length (requests_sent w1) + k = List.length (requests_sent w) + S k.
Proof.
  intros (_ & _ & _ & ->). rewrite length_app. cbn [List.length]. lia.
Qed.

Lemma tick_request_later w w1 :
  one_tick_later w w1 -> tick_request w1 = tick_request w.
Proof. intros (_ & _ & Hkey & _). unfold tick_request. now rewrite Hkey. Qed.

Lemma nth_outcome_later w w1 k :
  one_tick_later w w1 ->
  network w1 (List.length (requests_sent w1) + k) (tick_request w1) =
  network w (List.length (requests_sent w) + S k) (tick_request w).
Proof.
  intros H. rewrite (next_index k H), (tick_request_later H).
  destruct H as (-> & _). reflexivity.
Qed.

Lemma tick_error_later w w1 k :
  one_tick_later w w1 -> tick_error w1 k = tick_error w (S k).
Proof.
  intros H. unfold tick_error. rewrite (nth_outcome_later k H).
  unfold handler_error, stdout_error. destruct H as (_ & -> & _). reflexivity.
Qed.

Lemma tick_log_records_later w w1 k :
  one_tick_later w w1 -> tick_log_records w1 k = tick_log_records w (S k).
Proof.
  intros H. unfold tick_log_records. rewrite (nth_outcome_later k H).
  rewrite (next_index k H), (tick_request_later H).
  destruct H as (_ & -> & _). reflexivity.
Qed.

Lemma tick_outcomes_later n w w1 :
  one_tick_later w w1 ->
  tick_outcomes (S n) w = next_outcome w :: tick_outcomes n w1.
Proof.
  intros H. unfold tick_outcomes. cbn [seq List.map]. f_equal.
  - unfold next_outcome. now rewrite Nat.add_0_r.
  - rewrite <- seq_shift, map_map. apply map_ext. intros k.
    symmetry. apply (nth_outcome_later k H).
Qed.

Lemma tick_log_records_S n w w1 :
  one_tick_later w w1 ->
  flat_map (tick_log_records w) (seq 0 (S n)) =
  (library_log (host w) (List.length (requests_sent w)) (tick_request w)
   ++ tick_diagnostics (next_outcome w))
  ++ flat_map (tick_log_records w1) (seq 0 n).
Proof.
  intros H. cbn [seq flat_map]. f_equal.
  - unfold tick_log_records, next_outcome. now rewrite Nat.add_0_r.
  - rewrite <- seq_shift, !flat_map_concat_map, map_map. f_equal.
    apply map_ext. intros k. symmetry. apply (tick_log_records_later k H).
Qed.

(** The loop over [n] ticks none of which lets an exception out: it is
    still running, and the world is the following. *)
Lemma run_completes n : forall w,
  (forall k, k < n -> tick_error w k = None) ->
  run n w =
  (Return tt,
   mkWorld (files w) (network w)
           (requests_sent w ++ repeat (tick_request w) n)
           (console w ++ List.map (fun message => lit "[DEBUG]: " ++ message)
                                  (flat_map tick_diagnostics (tick_outcomes n w)))
           (logfile w ++ flat_map (tick_log_records w) (seq 0 n))
           (emitted w ++ List.map (fun o => classify (poll_outcome o))
                                  (tick_outcomes n w))
           (slept w ++ repeat 5%Z n)
           (interruption_requested w) (RIOT_API_KEY w) (host w)).
Proof.
  induction n as [|n IH]; intros w Hok.
  - cbn. rewrite !app_nil_r. destruct w; reflexivity.
  - assert (H0 : tick_error w 0 = None) by (apply Hok; lia).
    destruct (run_iteration_completes w H0) as [Hret Hlater].
    rewrite run_S, Hret.
    rewrite IH by (intros k Hk; rewrite (tick_error_later k Hlater); apply Hok; lia).
    rewrite (tick_outcomes_later n Hlater), (tick_log_records_S n Hlater).
    rewrite (tick_request_later Hlater).
    remember (tick_outcomes n (after run_iteration w)) as outs eqn:Houts.
    remember (flat_map (tick_log_records (after run_iteration w)) (seq 0 n))
      as logs eqn:Hlogs.
    clear Houts Hlogs. rewrite tick_error_0 in H0.
    unfold after. rewrite run_iteration_eq, H0. cbv zeta.
    cbn [snd files network requests_sent console logfile emitted slept
         interruption_requested RIOT_API_KEY host flat_map List.map repeat].
    rewrite map_app, <- !app_assoc. reflexivity.
Qed.

(** A loop that is still running after [n] ticks let no exception out on
    any of them. *)
Lemma run_returns n : forall w,
  outcome (run n) w = Return tt -> forall k, k < n -> tick_error w k = None.
Proof.
  induction n as [|n IH]; intros w H k Hk; [lia|].
  unfold outcome in H. rewrite run_S in H.
  destruct (tick_error w 0) as [e|] eqn:H0.
  - rewrite (run_iteration_raises w H0) in H. discriminate H.
  - destruct (run_iteration_completes w H0) as [Hret Hlater].
    rewrite Hret in H. destruct k as [|k]; [exact H0|].
    rewrite <- (tick_error_later k Hlater). apply (IH _ H). lia.
Qed.

(** Running on after [n] completed ticks. *)
Lemma run_add n : forall w j,
  outcome (run n) w = Return tt -> run (n + j) w = run j (after (run n) w).
Proof.
  induction n as [|n IH]; intros w j H; [reflexivity|].
  unfold outcome, after in *. cbn [Nat.add].
  rewrite (run_S (n + j) w), (run_S n w). rewrite (run_S n w) in H.
  destruct (outcome run_iteration w); [|discriminate H].
  now apply IH.
Qed.

(** The loop whose tick number [j] is the first to let an exception out:
    the exception leaves [run], after [j] published messages. *)
Lemma run_stops j w e :
  (forall k, k < j -> tick_error w k = None) ->
  tick_error w j = Some e ->
  forall n, j < n ->
  outcome (run n) w = Raise e /\
  emitted (after (run n) w) =
    emitted w ++ List.map (fun o => classify (poll_outcome o)) (tick_outcomes j w) /\
  requests_sent (after (run n) w) = requests_sent w ++ repeat (tick_request w) (S j) /\
  slept (after (run n) w) = slept w ++ repeat 5%Z j /\
  logfile (after (run n) w) =
    logfile w ++ flat_map (tick_log_records w) (seq 0 j)
    ++ library_log (host w) (List.length (requests_sent w) + j) (tick_request w).
Proof.
  intros Hok Hj n Hn.
  pose proof (@run_completes j w Hok) as Hrun.
  assert (Hret : outcome (run j) w = Return tt) by (unfold outcome; now rewrite Hrun).
  replace n with (j + S (n - S j)) by lia.
  unfold outcome, after. rewrite (@run_add j w (S (n - S j)) Hret).
  unfold after. rewrite Hrun. cbn [snd].
  set (wj := mkWorld _ _ _ _ _ _ _ _ _ _).
  assert (Hlen : List.length (requests_sent wj) = List.length (requests_sent w) + j)
    by (unfold wj; cbn [requests_sent]; now rewrite length_app, repeat_length).
  assert (Hfatal : handler_error wj (next_outcome wj) = Some e).
  { unfold next_outcome. rewrite Hlen. exact Hj. }
  rewrite run_S. unfold outcome, after. rewrite run_iteration_eq, Hfatal.
  cbv zeta. cbn [fst snd emitted requests_sent slept logfile].
  rewrite Hlen. unfold wj; cbn [emitted requests_sent slept logfile host tick_request
                                RIOT_API_KEY].
  repeat split.
  - rewrite <- app_assoc. f_equal. cbn [repeat]. symmetry. apply repeat_cons.
  - now rewrite <- app_assoc.
Qed.

(** The poller never reads the interruption flag: raising it changes
    neither what an iteration returns nor what it does. *)
Lemma run_iteration_ignores_interruption w :
  run_iteration (requestInterruption w) =
  (outcome run_iteration w, requestInterruption (after run_iteration w)).
Proof.
  unfold outcome, after. rewrite !run_iteration_eq. cbv zeta.
  change (handler_error (requestInterruption w) (next_outcome (requestInterruption w)))
    with (handler_error w (next_outcome w)).
  change (next_outcome (requestInterruption w)) with (next_outcome w).
  destruct (handler_error w (next_outcome w)); reflexivity.
Qed.

Lemma run_ignores_interruption n : forall w,
  run n (requestInterruption w) =
  (outcome (run n) w, requestInterruption (after (run n) w)).
Proof.
  induction n as [|n IH]; intros w; [reflexivity|].
  unfold outcome, after in *. rewrite !run_S. unfold outcome, after.
  rewrite run_iteration_ignores_interruption. unfold outcome, after. cbn [fst snd].
  destruct (fst (run_iteration w)); [apply IH | reflexivity].
Qed.

(** ** C1 *)

(** C1, counterexample: no configuration file, so that the module-level
    assignment leaves the token absent, and an endpoint that answers 401.
    The tick issues the request (with [None] as the header value) and
    yields "No Active Match Found.", not the transport-error message. *)
Lemma fetch_match_status_absent_token_sends :
  let w := after module_init
                 (initial_world no_files (always (Responds (mkResponse 401)))) in
  RIOT_API_KEY w = None /\
  outcome fetch_match_status w = Return NO_ACTIVE_MATCH /\
  requests_sent (after fetch_match_status w) =
    [mkRequest URL [(lit "X-Riot-Token", None)]] /\
  ~ (outcome fetch_match_status w = Return ERROR_FETCHING /\
     requests_sent (after fetch_match_status w) = requests_sent w).
Proof.
  cbv zeta. repeat split; try reflexivity.
  intros [H _]. vm_compute in H. discriminate H.
Qed.

(** C1, amended: while the access token is absent, every poll tick still
    issues exactly one HTTP GET request, whose [X-Riot-Token] header value
    is [None]; a response is classified as with a token (200 gives "Match
    Active - Data Retrieved!", any other status "No Active Match Found.");
    "Error fetching data." is yielded only when that request raises an
    exception, and it is yielded whenever the diagnostic of that exception
    can be printed. *)
Theorem fetch_match_status_absent_token w :
  RIOT_API_KEY w = None ->
  requests_sent (after fetch_match_status w) =
    requests_sent w ++ [mkRequest URL [(lit "X-Riot-Token", None)]] /\
  (forall r, next_outcome w = Responds r ->
     outcome fetch_match_status w =
       Return (if (status_code r =? 200)%Z
               then lit "Match Active - Data Retrieved!"
               else lit "No Active Match Found.")) /\
  (outcome fetch_match_status w = Return (lit "Error fetching data.") ->
   exists e, next_outcome w = Fails e) /\
  (forall e, next_outcome w = Fails e ->
     stdout_error w (lit "API Error: " ++ exn_str e) = None ->
     outcome fetch_match_status w = Return (lit "Error fetching data.")).
Proof.
  intros Hkey. split; [|split; [|split]].
  - rewrite fetch_match_status_sent. unfold tick_request. now rewrite Hkey.
  - intros r Hr. unfold outcome. rewrite fetch_match_status_eq, Hr. reflexivity.
  - intros H. apply fetch_match_status_returns in H.
    apply classify_error_iff. now symmetry.
  - intros e He Hprint. unfold outcome.
    rewrite fetch_match_status_eq, He. cbv zeta. now rewrite Hprint.
Qed.

Lemma fetch_match_status_absent_token_witness :
  outcome fetch_match_status (poller_world None (Fails connection_refused))
  = Return (lit "Error fetching data.") /\
  requests_sent
    (after fetch_match_status (poller_world None (Fails connection_refused)))
  = [mkRequest URL [(lit "X-Riot-Token", None)]].
Proof.
  destruct (@fetch_match_status_absent_token
              (poller_world None (Fails connection_refused)) eq_refl)
    as (Hsent & _ & _ & Herr).
  split; [|exact Hsent].
  apply (Herr connection_refused); reflexivity.
Defined.

(** ** C2 *)

(** C2, the defect: a present token, a request that raises an exception
    whose text is "Connexion refusee" with an acute accent, and a console
    whose encoding is ASCII.  The [except] branch calls [debug_log], whose
    [print] raises [UnicodeEncodeError] on the diagnostic: that exception
    leaves [fetch_match_status], "Error fetching data." is not returned, and
    the detail never reaches the log, because [logging.debug] comes after
    [print]. *)
Theorem fetch_match_status_unprintable_diagnostic :
  let w := poller_on ascii_host (Some (lit "RGAPI-0123-abcd"))
                     (always (Fails connexion_refusee)) in
  RIOT_API_KEY w = Some (lit "RGAPI-0123-abcd") /\
  next_outcome w = Fails connexion_refusee /\
  outcome fetch_match_status w = Raise ascii_encode_error /\
  outcome fetch_match_status w <> Return (lit "Error fetching data.") /\
  ~ In (lit "API Error: " ++ exn_str connexion_refusee)
       (logfile (after fetch_match_status w)) /\
  console (after fetch_match_status w) = [lit "[DEBUG]: "].
Proof.
  cbv zeta. repeat split; try reflexivity.
  - intros H. vm_compute in H. discriminate H.
  - intros H. vm_compute in H. destruct H as [H | []]. discriminate H.
Qed.

(** ** C3 *)

(** C3, the defect: the same console, and a network whose second request
    raises that exception.  The second tick publishes nothing: the
    exception of [print] leaves [fetch_match_status] and then [run], whose
    loop has no [try], so the polling loop ends after one published
    message however many ticks it is given. *)
Theorem run_stops_on_unprintable_diagnostic :
  let w := poller_on ascii_host (Some (lit "RGAPI-0123-abcd"))
                     (fails_second connexion_refusee) in
  outcome (run 1) w = Return tt /\
  outcome fetch_match_status (after (run 1) w) = Raise ascii_encode_error /\
  (forall n,
     outcome (run (2 + n)) w = Raise ascii_encode_error /\
     emitted (after (run (2 + n)) w) = [MATCH_ACTIVE] /\
     List.length (requests_sent (after (run (2 + n)) w)) = 2).
Proof.
  cbv zeta. split; [reflexivity | split; [reflexivity|]].
  intros n.
  destruct (@run_stops 1
              (poller_on ascii_host (Some (lit "RGAPI-0123-abcd"))
                         (fails_second connexion_refusee))
              ascii_encode_error) with (n := 2 + n)
    as (Hout & Hem & Hsent & _).
  - intros k Hk. replace k with 0 by lia. reflexivity.
  - reflexivity.
  - lia.
  - split; [exact Hout | split; [exact Hem | now rewrite Hsent]].
Qed.

(** ** C8 *)

(** C8, counterexample: a poller that has completed one tick when
    [requestInterruption] is called.  Three further ticks publish three
    further messages: the loop never looks at the flag. *)
Lemma run_publishes_after_interruption :
  let w := requestInterruption
             (after (run 1)
                    (poller_world (Some (lit "RGAPI-0123-abcd"))
                                  (Responds (mkResponse 200)))) in
  interruption_requested w = true /\
  emitted w = [MATCH_ACTIVE] /\
  emitted (after (run 3) w) =
    [MATCH_ACTIVE; MATCH_ACTIVE; MATCH_ACTIVE; MATCH_ACTIVE] /\
  ~ (forall n, List.length (emitted (after (run n) w))
               <= List.length (emitted w) + 1).
Proof.
  cbv zeta. repeat split; try reflexivity.
  intros H. specialize (H 3). vm_compute in H. lia.
Qed.

(** C8, amended: [MatchTracker.run] has no cancellation mechanism.  The loop
    is unconditional and never reads the interruption flag: once an
    interruption has been requested, the poller does exactly what it would
    have done without it, with the same result and the same published
    messages, and as long as no exception leaves the loop it publishes one
    message on every further tick. *)
Theorem run_has_no_cancellation n w :
  run n (requestInterruption w) =
    (outcome (run n) w, requestInterruption (after (run n) w)) /\
  emitted (after (run n) (requestInterruption w)) = emitted (after (run n) w) /\
  (outcome (run n) w = Return tt ->
   List.length (emitted (after (run n) (requestInterruption w)))
   = List.length (emitted w) + n).
Proof.
  split; [apply run_ignores_interruption|].
  unfold after at 1 3. rewrite run_ignores_interruption. cbn [snd].
  split; [reflexivity|].
  intros H. pose proof (@run_returns n w H) as Hok.
  unfold after, requestInterruption. cbn [emitted].
  rewrite (@run_completes n w Hok). cbn [snd emitted].
  unfold tick_outcomes. now rewrite length_app, !length_map, length_seq.
Qed.

Lemma run_has_no_cancellation_witness :
  List.length
    (emitted (after (run 3)
                    (requestInterruption
                       (poller_world (Some (lit "RGAPI-0123-abcd"))
                                     (Responds (mkResponse 200))))))
  = 0 + 3.
Proof.
  apply (proj2 (proj2 (run_has_no_cancellation 3
                         (poller_world (Some (lit "RGAPI-0123-abcd"))
                                       (Responds (mkResponse 200)))))).
  reflexivity.
Defined.

(** ** C9 *)

(** C9, the defect: two ticks on the same ASCII console whose requests
    both raise an exception, so that their outcomes are in the same class;
    the texts of the exceptions differ by an accent.  The first tick returns
    "Error fetching data."; the second returns no message at all, because
    the exception of [print] leaves [fetch_match_status]: the mapping of
    outcomes to messages is neither total nor a function of the class. *)
Theorem fetch_match_status_same_class_two_results :
  let w1 := poller_on ascii_host (Some (lit "RGAPI-0123-abcd"))
                      (always (Fails connection_refused)) in
  let w2 := poller_on ascii_host (Some (lit "RGAPI-0123-abcd"))
                      (always (Fails connexion_refusee)) in
  poll_outcome (next_outcome w1) = TransportError /\
  poll_outcome (next_outcome w2) = TransportError /\
  outcome fetch_match_status w1 = Return (lit "Error fetching data.") /\
  outcome fetch_match_status w2 = Raise ascii_encode_error /\
  outcome fetch_match_status w1 <> outcome fetch_match_status w2 /\
  ~ (exists m, outcome fetch_match_status w2 = Return m).
Proof.
  cbv zeta. repeat split; try reflexivity.
  - intros H. vm_compute in H. discriminate H.
  - intros [m H]. vm_compute in H. discriminate H.
Qed.

End Poller.

(* ================================================================== *)
(** * The poller over several ticks *)
(* ================================================================== *)

Section Ticks.

Implicit Types (w : World) (n k : nat).



(** X13: on a tick with a present token the request carries the token.  A
    response with status code 200 yields "Match Active - Data Retrieved!"
    and any other response "No Active Match Found."; nothing is printed and
    the log receives the records of the libraries only.  An exception whose
    diagnostic the console can encode yields "Error fetching data.", one
    console line and, after the records of the libraries, one log record
    with the text of the exception. *)
Theorem fetch_match_status_printable_classification w token :
  RIOT_API_KEY w = Some token ->
  requests_sent (after fetch_match_status w) =
    requests_sent w ++ [mkRequest URL [(lit "X-Riot-Token", Some token)]] /\
  match next_outcome w with
  | Responds r =>
      (status_code r = 200%Z ->
       outcome fetch_match_status w =
         Return (lit "Match Active - Data Retrieved!")) /\
      (status_code r <> 200%Z ->
       outcome fetch_match_status w = Return (lit "No Active Match Found.")) /\
      logfile (after fetch_match_status w) =
        logfile w
        ++ library_log (host w) (List.length (requests_sent w)) (tick_request w) /\
      console (after fetch_match_status w) = console w
  | Fails e =>
      stdout_error w (lit "API Error: " ++ exn_str e) = None ->
      outcome fetch_match_status w = Return (lit "Error fetching data.") /\
      logfile (after fetch_match_status w) =
        logfile w
        ++ library_log (host w) (List.length (requests_sent w)) (tick_request w)
        ++ [lit "API Error: " ++ exn_str e] /\
      console (after fetch_match_status w) =
        console w ++ [lit "[DEBUG]: API Error: " ++ exn_str e]
  end.
Proof.
  intros Hkey. split.
  - rewrite fetch_match_status_sent. unfold tick_request. now rewrite Hkey.
  - unfold outcome, after. rewrite fetch_match_status_eq. cbv zeta.
    destruct (next_outcome w) as [r|e].
    + cbn [fst snd logfile console]. repeat split.
      * intros ->. reflexivity.
      * intros Hne. apply Z.eqb_neq in Hne. now rewrite Hne.
    + intros ->. cbn [fst snd logfile console].
      rewrite <- app_assoc. repeat split.
Qed.

Lemma fetch_match_status_printable_classification_witness :
  outcome fetch_match_status
          (poller_world (Some (lit "RGAPI-0123-abcd")) (Responds (mkResponse 200)))
  = Return (lit "Match Active - Data Retrieved!") /\
  outcome fetch_match_status
          (poller_world (Some (lit "RGAPI-0123-abcd")) (Responds (mkResponse 404)))
  = Return (lit "No Active Match Found.") /\
  logfile (after fetch_match_status
                 (poller_world (Some (lit "RGAPI-0123-abcd"))
                               (Fails connection_refused)))
  = [] ++ urllib3_records 0 (mkRequest URL [(lit "X-Riot-Token",
                                             Some (lit "RGAPI-0123-abcd"))])
       ++ [lit "API Error: Connection refused"].
Proof.
  split; [|split].
  - apply (proj1 (proj2 (@fetch_match_status_printable_classification
                           (poller_world (Some (lit "RGAPI-0123-abcd"))
                                         (Responds (mkResponse 200)))
                           (lit "RGAPI-0123-abcd") eq_refl))).
    reflexivity.
  - apply (proj1 (proj2 (proj2 (@fetch_match_status_printable_classification
                           (poller_world (Some (lit "RGAPI-0123-abcd"))
                                         (Responds (mkResponse 404)))
                           (lit "RGAPI-0123-abcd") eq_refl)))).
    discriminate.
  - apply (proj1 (proj2 (proj2 (@fetch_match_status_printable_classification
                           (poller_world (Some (lit "RGAPI-0123-abcd"))
                                         (Fails connection_refused))
                           (lit "RGAPI-0123-abcd") eq_refl) eq_refl))).
Defined.

(** X1: over [n] ticks none of which lets an exception out (every failed
    request has a diagnostic the console can encode), [run] is still
    running and has published, in tick order, exactly the classifications
    of the outcomes of its [n] requests: the message of a tick depends on
    the outcome of its own request only. *)
Theorem run_messages_in_tick_order n w :
  (forall k, k < n -> tick_error w k = None) ->
  outcome (run n) w = Return tt /\
  emitted (after (run n) w) =
    emitted w ++ List.map (fun o => classify (poll_outcome o)) (tick_outcomes n w) /\
  forall k, k < n ->
    nth_error (emitted (after (run n) w)) (List.length (emitted w) + k) =
    Some (classify (poll_outcome
            (network w (List.length (requests_sent w) + k) (tick_request w)))).
Proof.
  intros Hok. unfold outcome, after. rewrite (@run_completes n w Hok).
  cbn [fst snd emitted]. split; [reflexivity | split; [reflexivity|]].
  intros k Hk. rewrite nth_error_app2 by lia.
  replace (List.length (emitted w) + k - List.length (emitted w)) with k by lia.
  unfold tick_outcomes. rewrite map_map.
  rewrite nth_error_map, nth_error_seq.
  apply Nat.ltb_lt in Hk. rewrite Hk. reflexivity.
Qed.

Lemma run_messages_in_tick_order_witness :
  emitted (after (run 3)
                 (poller_on utf8_host (Some (lit "RGAPI-0123-abcd"))
                            (fails_second connexion_refusee)))
  = [] ++ [MATCH_ACTIVE; ERROR_FETCHING; MATCH_ACTIVE].
Proof.
  apply (proj1 (proj2 (@run_messages_in_tick_order 3
                         (poller_on utf8_host (Some (lit "RGAPI-0123-abcd"))
                                    (fails_second connexion_refusee))
                         (fun k _ =>
                            match k with
                            | 0 | 1 | 2 => eq_refl
                            | _ => eq_refl
                            end)))).
Defined.

(** X2: over [n] ticks none of which lets an exception out, [run] issues
    exactly [n] requests, all of them the same GET with the token the
    global held when polling began, and sleeps exactly [n] times, 5 seconds
    each: the cadence does not change after failed requests, and the loop
    never reassigns [RIOT_API_KEY]. *)
Theorem run_requests_and_cadence n w :
  (forall k, k < n -> tick_error w k = None) ->
  requests_sent (after (run n) w) =
    requests_sent w
    ++ repeat (mkRequest URL [(lit "X-Riot-Token", RIOT_API_KEY w)]) n /\
  slept (after (run n) w) = slept w ++ repeat 5%Z n /\
  RIOT_API_KEY (after (run n) w) = RIOT_API_KEY w.
Proof.
  intros Hok. unfold after. rewrite (@run_completes n w Hok). repeat split.
Qed.

Lemma run_requests_and_cadence_witness :
  slept (after (run 4) (poller_world None (Fails connection_refused)))
  = [] ++ repeat 5%Z 4.
Proof.
  apply (proj1 (proj2 (@run_requests_and_cadence 4
                         (poller_world None (Fails connection_refused))
                         (fun k _ => eq_refl)))).
Defined.

(** X3: over [n] ticks none of which lets an exception out, the log file
    receives for every tick the records of the libraries for its request
    and then, if the request raised, the record ["API Error: "] followed by
    the text of the exception; the console receives one line per failed
    request, ["[DEBUG]: "] followed by that record, and nothing for an
    answered request whatever its status code. *)
Theorem run_diagnostics n w :
  (forall k, k < n -> tick_error w k = None) ->
  logfile (after (run n) w) =
    logfile w ++ flat_map (tick_log_records w) (seq 0 n) /\
  console (after (run n) w) =
    console w ++ List.map (fun message => lit "[DEBUG]: " ++ message)
                          (flat_map tick_diagnostics (tick_outcomes n w)) /\
  ((forall k, k < n -> exists r,
       network w (List.length (requests_sent w) + k) (tick_request w) = Responds r) ->
   console (after (run n) w) = console w).
Proof.
  intros Hok. unfold after. rewrite (@run_completes n w Hok).
  cbn [snd logfile console]. split; [reflexivity | split; [reflexivity|]].
  intros Hall.
  assert (Hnone : flat_map tick_diagnostics (tick_outcomes n w) = []).
  { unfold tick_outcomes. rewrite flat_map_concat_map, map_map.
    apply concat_nil_Forall, Forall_forall. intros d Hd.
    apply in_map_iff in Hd as (k & <- & Hk). apply in_seq in Hk.
    destruct (Hall k) as [r ->]; [lia | reflexivity]. }
  rewrite Hnone. cbn. now rewrite app_nil_r.
Qed.

Lemma run_diagnostics_witness :
  logfile (after (run 2)
                 (poller_on utf8_host None (fails_second connexion_refusee)))
  = [] ++ [lit "Starting new HTTPS connection (1): americas.api.riotgames.com:443";
           lit "Starting new HTTPS connection (1): americas.api.riotgames.com:443";
           lit "API Error: Connexion refus" ++ [233; 101]%N].
Proof.
  apply (proj1 (@run_diagnostics 2
                  (poller_on utf8_host None (fails_second connexion_refusee))
                  (fun k _ =>
                     match k with
                     | 0 | 1 => eq_refl
                     | _ => eq_refl
                     end))).
Defined.

(** X12: when tick number [j] (counted from 0) is the first whose failed
    request has a diagnostic the console cannot encode, the exception of
    [print] leaves [run] on that tick: however many ticks follow, exactly
    [j] messages are published, [j + 1] requests are sent, the thread has
    slept [j] times, and the failure of tick [j] is not in the log. *)
Theorem run_first_unprintable_tick j w e :
  (forall k, k < j -> tick_error w k = None) ->
  tick_error w j = Some e ->
  forall n, j < n ->
  outcome (run n) w = Raise e /\
  emitted (after (run n) w) =
    emitted w ++ List.map (fun o => classify (poll_outcome o)) (tick_outcomes j w) /\
  requests_sent (after (run n) w) = requests_sent w ++ repeat (tick_request w) (S j) /\
  slept (after (run n) w) = slept w ++ repeat 5%Z j /\
  logfile (after (run n) w) =
    logfile w ++ flat_map (tick_log_records w) (seq 0 j)
    ++ library_log (host w) (List.length (requests_sent w) + j) (tick_request w).
Proof. exact (@run_stops j w e). Qed.

Lemma run_first_unprintable_tick_witness :
  outcome (run 5)
          (poller_on ascii_host None (fails_second connexion_refusee))
  = Raise ascii_encode_error.
Proof.
  refine (proj1 (@run_first_unprintable_tick 1
                   (poller_on ascii_host None (fails_second connexion_refusee))
                   ascii_encode_error _ _ 5 _)).
  - intros k Hk. replace k with 0 by lia. reflexivity.
  - reflexivity.
  - lia.
Defined.

End Ticks.

(* ================================================================== *)
(** * More on the credential loader *)
(* ================================================================== *)

Section LoaderEffects.

Implicit Types (w : World) (s t ws : pystr).

(** The world [load_api_key] leaves: one console line and one log record
    when the file is missing, no change at all otherwise. *)
Lemma load_api_key_world w :
  after load_api_key w =
  match config_shape_of w with
  | FileMissing =>
      mkWorld (files w) (network w) (requests_sent w)
              (console w
               ++ [lit "[DEBUG]: "
                   ++ lit "Config file not found. Please update tracker_config.json."])
              (logfile w
               ++ [lit "Config file not found. Please update tracker_config.json."])
              (emitted w) (slept w) (interruption_requested w) (RIOT_API_KEY w)
              (host w)
  | _ => w
  end.
Proof.
  unfold after. rewrite load_api_key_eq.
  destruct (config_shape_of w); reflexivity.
Qed.

Lemma load_api_key_files w : files (after load_api_key w) = files w.
Proof. rewrite load_api_key_world. destruct (config_shape_of w); reflexivity. Qed.

(** The world the module-level assignment leaves. *)
Lemma module_init_world w :
  after module_init w =
  match outcome load_api_key w with
  | Return key =>
      let w' := after load_api_key w in
      mkWorld (files w') (network w') (requests_sent w') (console w')
              (logfile w') (emitted w') (slept w')
              (interruption_requested w') key (host w')
  | Raise _ => after load_api_key w
  end.
Proof.
  unfold after, outcome, module_init, bind.
  destruct (load_api_key w) as [[key|e] w']; reflexivity.
Qed.

Lemma lstrip_whitespace ws : forallb isspace ws = true -> lstrip ws = [].
Proof.
  induction ws as [|c ws IH]; cbn; [reflexivity|].
  intros H. apply andb_true_iff in H as [Hc Hws]. rewrite Hc. auto.
Qed.

Lemma lstrip_pad ws s : forallb isspace ws = true -> lstrip (ws ++ s) = lstrip s.
Proof.
  induction ws as [|c ws IH]; cbn; [reflexivity|].
  intros H. apply andb_true_iff in H as [Hc Hws]. rewrite Hc. auto.
Qed.

Lemma lstrip_app s t :
  lstrip (s ++ t) = match lstrip s with [] => lstrip t | _ :: _ => lstrip s ++ t end.
Proof.
  induction s as [|c s IH]; cbn; [reflexivity|].
  destruct (isspace c); [exact IH | reflexivity].
Qed.

Lemma rstrip_pad s ws : forallb isspace ws = true -> rstrip (s ++ ws) = rstrip s.
Proof.
  intros H. unfold rstrip. rewrite rev_app_distr, lstrip_pad; [reflexivity|].
  rewrite forallb_forall in *. intros c Hc. apply H. now apply in_rev.
Qed.

(** Whitespace around a string does not change what [strip] returns. *)
Lemma strip_pad ws1 s ws2 :
  forallb isspace ws1 = true -> forallb isspace ws2 = true ->
  strip (ws1 ++ s ++ ws2) = strip s.
Proof.
  intros H1 H2. unfold strip. rewrite lstrip_pad by assumption.
  rewrite lstrip_app.
  destruct (lstrip s) as [|c u] eqn:Hs.
  - rewrite lstrip_whitespace by assumption. reflexivity.
  - now apply rstrip_pad.
Qed.

(** Apart from the diagnostic of the missing file, [load_api_key] changes
    nothing. *)
Lemma load_api_key_frame w :
  files (after load_api_key w) = files w /\
  network (after load_api_key w) = network w /\
  requests_sent (after load_api_key w) = requests_sent w /\
  emitted (after load_api_key w) = emitted w /\
  slept (after load_api_key w) = slept w /\
  RIOT_API_KEY (after load_api_key w) = RIOT_API_KEY w /\
  host (after load_api_key w) = host w.
Proof.
  rewrite load_api_key_world. destruct (config_shape_of w); repeat split.
Qed.

Lemma load_api_key_raise_world w e :
  outcome load_api_key w = Raise e -> after load_api_key w = w.
Proof.
  unfold outcome. rewrite load_api_key_world, load_api_key_eq.
  destruct (config_shape_of w); try reflexivity; discriminate.
Qed.





(** X5: whitespace around the [api_key] string of the configuration does
    not matter: two configurations whose fields differ only by leading and
    trailing whitespace give the same result; in particular a field made of
    whitespace only is treated as an empty one, [None] is returned and
    nothing is logged. *)
Theorem load_api_key_ignores_padding w1 w2 s ws1 ws2 :
  config_shape_of w1 = FieldString s ->
  config_shape_of w2 = FieldString (ws1 ++ s ++ ws2) ->
  forallb isspace ws1 = true ->
  forallb isspace ws2 = true ->
  outcome load_api_key w2 = outcome load_api_key w1 /\
  (s = [] -> outcome load_api_key w2 = Return None /\ after load_api_key w2 = w2).
Proof.
  intros H1 H2 Hws1 Hws2.
  unfold outcome. rewrite load_api_key_world, !load_api_key_eq, H1, H2.
  cbn [ret fst]. rewrite strip_pad by assumption.
  split; [reflexivity|]. intros ->. split; reflexivity.
Qed.

Lemma load_api_key_ignores_padding_witness :
  outcome load_api_key
          (initial_world
             (only_config (config_with (PyStr (lit "  " ++ lit "RGAPI-1" ++ [9; 160]%N))))
             (always (Fails connection_refused)))
  = outcome load_api_key
            (initial_world (only_config (config_with (PyStr (lit "RGAPI-1"))))
                           (always (Fails connection_refused))).
Proof.
  apply (proj1 (@load_api_key_ignores_padding
                  (initial_world (only_config (config_with (PyStr (lit "RGAPI-1"))))
                                 (always (Fails connection_refused)))
                  (initial_world
                     (only_config
                        (config_with (PyStr (lit "  " ++ lit "RGAPI-1" ++ [9; 160]%N))))
                     (always (Fails connection_refused)))
                  (lit "RGAPI-1") (lit "  ") [9; 160]%N
                  eq_refl eq_refl eq_refl eq_refl)).
Defined.

(** X10: a returned token is the [api_key] string of the configuration
    with nothing but surrounding whitespace removed: the string is the
    token between two runs of whitespace, so no character inside the token
    is dropped or altered. *)
Theorem load_api_key_returns_field_core w t :
  outcome load_api_key w = Return (Some t) ->
  exists members s ws1 ws2,
    files w CONFIG_FILE = Some (Return (PyDict members)) /\
    dict_lookup members (lit "api_key") = Some (PyStr s) /\
    s = ws1 ++ t ++ ws2 /\
    forallb isspace ws1 = true /\ forallb isspace ws2 = true.
Proof.
  intros H. destruct (load_api_key_some w H) as (s & Hshape & -> & _).
  destruct (lstrip_decompose s) as (ws1 & Hs1 & Hws1).
  destruct (rstrip_decompose (lstrip s)) as (ws2 & Hs2 & Hws2).
  unfold config_shape_of in Hshape.
  destruct (files w CONFIG_FILE) as [[v|e]|]; try discriminate Hshape.
  unfold shape_of_document in Hshape.
  destruct v as [| | | | |items|members]; try discriminate Hshape.
  destruct (dict_lookup members (lit "api_key")) as [[]|] eqn:Hfield;
    try discriminate Hshape.
  injection Hshape as ->.
  exists members, s, ws1, ws2. unfold strip.
  repeat split; try assumption. now rewrite <- Hs2.
Qed.

Lemma load_api_key_returns_field_core_witness :
  exists members s ws1 ws2,
    files (initial_world
             (only_config (config_with (PyStr (lit "  RGAPI-0123-abcd "))))
             (always (Fails connection_refused))) CONFIG_FILE
    = Some (Return (PyDict members)) /\
    dict_lookup members (lit "api_key") = Some (PyStr s) /\
    s = ws1 ++ lit "RGAPI-0123-abcd" ++ ws2 /\
    forallb isspace ws1 = true /\ forallb isspace ws2 = true.
Proof.
  apply (@load_api_key_returns_field_core
           (initial_world
              (only_config (config_with (PyStr (lit "  RGAPI-0123-abcd "))))
              (always (Fails connection_refused)))
           (lit "RGAPI-0123-abcd") eq_refl).
Defined.

End LoaderEffects.

(* ================================================================== *)
(** * The script as a whole *)
(* ================================================================== *)

Section Script.

Implicit Types (w : World) (n : nat) (g : Window).

Lemma script_eq n w :
  script n w =
  match log_open_error (host w) with
  | Some e => (Raise e, w)
  | None =>
      match outcome module_init w with
      | Return _ => run n (after module_init w)
      | Raise e => (Raise e, after module_init w)
      end
  end.
Proof.
  unfold script, bind, logging_basicConfig, outcome, after.
  destruct (log_open_error (host w)); [reflexivity|].
  destruct (module_init w) as [[[]|e] w']; reflexivity.
Qed.

Lemma run_iteration_sent w :
  requests_sent (after run_iteration w) = requests_sent w ++ [tick_request w].
Proof.
  unfold after. rewrite run_iteration_eq. cbv zeta.
  destruct (handler_error w (next_outcome w)); reflexivity.
Qed.

(** Whether or not an exception ends the loop, the requests it sent are
    copies of one request; when the loop is still running there are as many
    of them as ticks, and as many messages. *)
Lemma run_requests n : forall w,
  exists m,
    m <= n /\
    requests_sent (after (run n) w) = requests_sent w ++ repeat (tick_request w) m /\
    (outcome (run n) w = Return tt ->
     m = n /\
     List.length (emitted (after (run n) w)) = List.length (emitted w) + n).
Proof.
  intros w. destruct (outcome (run n) w) as [[]|e] eqn:Hout.
  - pose proof (@run_returns n w Hout) as Hok.
    exists n. unfold after. rewrite (@run_completes n w Hok). cbn [snd requests_sent emitted].
    split; [lia | split; [reflexivity|]]. intros _. split; [reflexivity|].
    unfold tick_outcomes. now rewrite length_app, !length_map, length_seq.
  - revert w e Hout. induction n as [|n IH]; intros w e Hout; [discriminate Hout|].
    unfold outcome, after in *. rewrite run_S in *.
    destruct (tick_error w 0) as [pe|] eqn:H0.
    + rewrite (run_iteration_raises w H0) in *. cbn [snd].
      exists 1. split; [lia|]. split; [|discriminate].
      apply run_iteration_sent.
    + destruct (run_iteration_completes w H0) as [Hret Hlater].
      rewrite Hret in *. unfold after in *.
      destruct (IH _ _ Hout) as (m & Hm & Hsent & _).
      exists (S m). split; [lia|]. split; [|discriminate].
      rewrite Hsent, (tick_request_later Hlater).
      destruct Hlater as (_ & _ & _ & ->). now rewrite <- app_assoc.
Qed.

(** X8: the script polls with what the loader returned, or not at all.
    When [logging.basicConfig] cannot open the log file, or when
    [load_api_key] raises, the script stops with that exception before the
    tracker starts: no request is sent, nothing is published, printed or
    logged.  When the loader returns (a token or [None]), every request of
    the tracker carries that very value in its [X-Riot-Token] header, and
    as long as the loop is running there is one request and one published
    message per tick. *)
Theorem script_uses_loaded_key n w :
  (forall e, log_open_error (host w) = Some e ->
             outcome (script n) w = Raise e /\ after (script n) w = w) /\
  (log_open_error (host w) = None ->
   forall e, outcome load_api_key w = Raise e ->
             outcome (script n) w = Raise e /\ after (script n) w = w) /\
  (log_open_error (host w) = None ->
   forall key, outcome load_api_key w = Return key ->
   exists m,
     m <= n /\
     requests_sent (after (script n) w) =
       requests_sent w ++ repeat (mkRequest URL [(lit "X-Riot-Token", key)]) m /\
     (outcome (script n) w = Return tt ->
      m = n /\
      List.length (emitted (after (script n) w)) = List.length (emitted w) + n)).
Proof.
  split; [|split].
  - intros e He. unfold outcome, after. rewrite script_eq, He. split; reflexivity.
  - intros Hlog e He. unfold outcome at 1, after at 1. rewrite script_eq, Hlog.
    rewrite (module_init_raises w He). cbn [fst snd].
    split; [reflexivity|].
    rewrite module_init_world, He.
    exact (load_api_key_raise_world w He).
  - intros Hlog key Hkey. unfold outcome at 1, after. rewrite script_eq, Hlog.
    destruct (module_init_stores w Hkey) as [Hret Hglobal]. rewrite Hret.
    fold (outcome (run n) (after module_init w)).
    fold (after (run n) (after module_init w)).
    destruct (run_requests n (after module_init w)) as (m & Hm & Hsent & Hrun).
    destruct (load_api_key_frame w) as (_ & _ & Hs & Hemit & _).
    assert (Hs' : requests_sent (after module_init w) = requests_sent w)
      by (rewrite module_init_world, Hkey; exact Hs).
    assert (He' : emitted (after module_init w) = emitted w)
      by (rewrite module_init_world, Hkey; exact Hemit).
    exists m. split; [exact Hm|]. split.
    + rewrite Hsent, Hs'. unfold tick_request. now rewrite Hglobal.
    + intros H. destruct (Hrun H) as [-> Hlen]. split; [reflexivity|].
      now rewrite Hlen, He'.
Qed.

Lemma script_uses_loaded_key_witness :
  outcome (script 2)
          (world_on host_without_logs
                    (only_config (config_with (PyStr (lit " RGAPI-0123-abcd "))))
                    (always (Responds (mkResponse 200))))
  = Raise (mkExn FileNotFoundError
                 (lit "[Errno 2] No such file or directory: 'logs/tracker_debug.log'")) /\
  exists m,
    m <= 2 /\
    requests_sent
      (after (script 2)
             (initial_world
                (only_config (config_with (PyStr (lit " RGAPI-0123-abcd "))))
                (always (Responds (mkResponse 200)))))
    = [] ++ repeat (mkRequest URL [(lit "X-Riot-Token", Some (lit "RGAPI-0123-abcd"))]) m /\
    (outcome (script 2)
             (initial_world
                (only_config (config_with (PyStr (lit " RGAPI-0123-abcd "))))
                (always (Responds (mkResponse 200))))
     = Return tt ->
     m = 2 /\
     List.length
       (emitted (after (script 2)
                       (initial_world
                          (only_config (config_with (PyStr (lit " RGAPI-0123-abcd "))))
                          (always (Responds (mkResponse 200))))))
     = 0 + 2).
Proof.
  split.
  - apply (proj1 (script_uses_loaded_key 2
                    (world_on host_without_logs
                       (only_config (config_with (PyStr (lit " RGAPI-0123-abcd "))))
                       (always (Responds (mkResponse 200)))))
                 _ eq_refl).
  - apply (proj2 (proj2 (script_uses_loaded_key 2
                    (initial_world
                       (only_config (config_with (PyStr (lit " RGAPI-0123-abcd "))))
                       (always (Responds (mkResponse 200))))))
                 eq_refl (Some (lit "RGAPI-0123-abcd")) eq_refl).
Defined.

(** Delivering statuses one after the other leaves the last one on the
    label and touches no other widget. *)
Lemma deliver_window statuses : forall g,
  deliver statuses g =
  mkWindow (window_title g) (window_geometry g) (tab_titles g)
           (last statuses (match_status_label g))
           (match_status_font g) (log_display g) (log_display_read_only g).
Proof.
  induction statuses as [|status rest IH] using rev_ind; intros g.
  - destruct g; reflexivity.
  - unfold deliver in *. rewrite fold_left_app, IH, last_last. reflexivity.
Qed.

(** X9: when none of the first [k + 1] ticks lets an exception out, and
    their signals have been delivered in order to [update_match_status],
    the window is the one [__init__] built except for the label of the
    "Live Match" tab, which shows the message of the latest tick: title,
    geometry, tabs and font are unchanged, and the read-only display of the
    "Logs" tab is still empty, for no diagnostic is ever written to it. *)
Theorem label_shows_latest_tick k w :
  (forall i, i < S k -> tick_error w i = None) ->
  deliver (emitted (after (run (S k)) w)) ValorantTrackerGUI =
  mkWindow (lit "Valorant Tracker - Enterprise Edition")
           (100, 100, 1000, 650)%Z
           [lit "Live Match"; lit "Logs"]
           (classify (poll_outcome
              (network w (List.length (requests_sent w) + k) (tick_request w))))
           (lit "Arial", 12%Z)
           (lit "")
           true.
Proof.
  intros Hok. rewrite deliver_window. unfold after.
  rewrite (@run_completes (S k) w Hok). cbn [snd emitted].
  unfold tick_outcomes. rewrite seq_S, !map_app, app_assoc. cbn [List.map].
  rewrite last_last. reflexivity.
Qed.

Lemma label_shows_latest_tick_witness :
  match_status_label
    (deliver (emitted (after (run 2)
                             (poller_on utf8_host None
                                        (fails_second connexion_refusee))))
             ValorantTrackerGUI)
  = lit "Error fetching data.".
Proof.
  rewrite (@label_shows_latest_tick 1
             (poller_on utf8_host None (fails_second connexion_refusee))).
  - reflexivity.
  - intros i Hi. destruct i as [|[|i]]; [reflexivity | reflexivity | lia].
Defined.

End Script.
